(** * The span/offset model of [snorkel/models/context.py]

    A shallow embedding of the classes [Sentence], [TemporarySpan] and [Span]
    and of the Python operations their methods rely on (attribute lookup,
    list indexing, slicing, [str.join], [==] on plain data), followed by the
    properties of the character/word offset mapping, of slicing, of
    promotion and of span equality. *)

From Stdlib Require Import ZArith String Ascii List Lia Bool.
From stdpp Require Import base option list gmap strings.

Local Open Scope Z_scope.

(** ** Python values and exceptions *)

(** The identity of an object: what Python's [is] compares. *)
Definition addr := positive.

(** Plain data: [None], an [int], a [str], or a reference to an object whose
    [==] is identity (class [Context] defines [__eq__] as [self is other]). *)
Inductive atom :=
  | ANone
  | AInt (z : Z)
  | AStr (s : string)
  | ARef (a : addr).

(** A value is plain data or a list of plain data (the array columns). *)
Inductive pyval :=
  | Atom (a : atom)
  | PList (l : list atom).

#[global] Instance atom_eq_dec : EqDecision atom.
Proof. solve_decision. Defined.

#[global] Instance pyval_eq_dec : EqDecision pyval.
Proof. solve_decision. Defined.

(** The exceptions the code of the module can raise. [ArgumentError] is
    sqlalchemy's. *)
Inductive exn :=
  | AttributeError
  | TypeError
  | IndexError
  | NotImplementedError
  | NameError
  | ArgumentError.

(** A computation either returns a value or raises. *)
Inductive result (A : Type) :=
  | Ok (a : A)
  | Raise (e : exn).

Arguments Ok {A} a.
Arguments Raise {A} e.

#[global] Instance result_ret : MRet result := @Ok.

#[global] Instance result_bind : MBind result :=
  λ A B f m, match m with Ok a => f a | Raise e => Raise e end.

(** [a == b] on these values: structural on data, identity on references. *)
Definition py_eq (a b : pyval) : bool := bool_decide (a = b).


(** [o.name]: an object is its attribute namespace, which gives for each
    name it has the outcome of reading it: a value, or the exception a
    property or a lazy attribute raises. A missing name raises
    [AttributeError]. *)
Definition getattr (o : gmap string (result pyval)) (name : string) :
    result pyval :=
  match o !! name with
  | Some r => r
  | None => Raise AttributeError
  end.

(** [l[i]] on a list: a negative index counts from the end, and an index
    outside [-len(l), len(l)) raises [IndexError]. *)
Definition py_getitem {A : Type} (l : list A) (i : Z) : result A :=
  let n := Z.of_nat (length l) in
  let j := if i <? 0 then i + n else i in
  if (j <? 0) || (n <=? j) then Raise IndexError
  else match l !! Z.to_nat j with
       | Some x => Ok x
       | None => Raise IndexError
       end.

(** How a slice bound is clipped against a sequence of length [n]. *)
Definition py_slice_bound (n i : Z) : Z :=
  if i <? 0 then Z.max 0 (i + n) else Z.min i n.

(** The first position and the number of elements of [seq[start:stop]]. *)
Definition py_slice_range (n : Z) (start stop : option Z) : nat * nat :=
  let a := from_option (py_slice_bound n) 0 start in
  let b := from_option (py_slice_bound n) n stop in
  (Z.to_nat a, Z.to_nat (b - a)).

(** [l[start:stop]] on a list. *)
Definition py_list_slice {A : Type} (l : list A) (start stop : option Z) : list A :=
  let r := py_slice_range (Z.of_nat (length l)) start stop in
  take (snd r) (drop (fst r) l).

(** [s[start:stop]] on a string. *)
Definition py_str_slice (s : string) (start stop : option Z) : string :=
  let r := py_slice_range (Z.of_nat (String.length s)) start stop in
  substring (fst r) (snd r) s.

(** [v[start:stop]]: lists and strings can be sliced, nothing else. *)
Definition py_getslice (v : pyval) (start stop : option Z) : result pyval :=
  match v with
  | PList l => Ok (PList (py_list_slice l start stop))
  | Atom (AStr s) => Ok (Atom (AStr (py_str_slice s start stop)))
  | Atom _ => Raise TypeError
  end.

(** The strings of a list all of whose items are strings. *)
Fixpoint strs_of (l : list atom) : option (list string) :=
  match l with
  | [] => Some []
  | AStr s :: l' => cons s <$> strs_of l'
  | _ :: _ => None
  end.

(** The one-character strings of a string, in order. *)
Fixpoint chars_of (s : string) : list string :=
  match s with
  | EmptyString => []
  | String c s' => String c EmptyString :: chars_of s'
  end.

(** [sep.join(v)]: every item must be a string; iterating a string yields
    its characters; anything else raises [TypeError]. *)
Definition py_join (sep : string) (v : pyval) : result string :=
  match v with
  | PList l =>
      match strs_of l with
      | Some ss => Ok (String.concat sep ss)
      | None => Raise TypeError
      end
  | Atom (AStr s) => Ok (String.concat sep (chars_of s))
  | Atom _ => Raise TypeError
  end.

(** [x + 1] where [x] is [None] or an [int]. *)
Definition py_succ (x : option Z) : result Z :=
  match x with
  | Some z => Ok (z + 1)
  | None => Raise TypeError
  end.

(** [x - y + 1] where each of [x], [y] is [None] or an [int]; Python
    evaluates [x - y] first. *)
Definition py_sub_succ (x y : option Z) : result Z :=
  match x, y with
  | Some a, Some b => Ok (a - b + 1)
  | _, _ => Raise TypeError
  end.

(** ** class Sentence *)

(** The mapped columns of a [Sentence] with the identity of the object.
    [words] and [char_offsets] are [nullable=False]; the four other array
    columns may hold [None]. [other_attributes] is what else the
    namespace of the instance holds: the methods and class attributes of
    [Sentence] and of its bases, and what the mapper keeps on it. *)
Record Sentence := {
  sentence_addr : addr;
  sentence_id : option Z;
  stable_id : option string;
  document_id : option Z;
  document : option addr;
  position : Z;
  text : string;
  words : list string;
  char_offsets : list Z;
  lemmas : option (list string);
  poses : option (list string);
  dep_parents : option (list Z);
  dep_labels : option (list string);
  other_attributes : gmap string pyval
}.

(** A column that may hold [None]. *)
Definition nullable {A : Type} (f : A → pyval) (x : option A) : pyval :=
  from_option f (Atom ANone) x.

Definition str_list (l : list string) : pyval := PList (AStr <$> l).

Definition int_list (l : list Z) : pyval := PList (AInt <$> l).

(** [Sentence._asdict] *)
Definition _asdict (c : Sentence) : gmap string pyval :=
  list_to_map
    [ ("id"%string, nullable (λ z, Atom (AInt z)) (sentence_id c));
      ("document"%string, nullable (λ a, Atom (ARef a)) (document c));
      ("position"%string, Atom (AInt (position c)));
      ("text"%string, Atom (AStr (text c)));
      ("words"%string, str_list (words c));
      ("char_offsets"%string, int_list (char_offsets c));
      ("lemmas"%string, nullable str_list (lemmas c));
      ("poses"%string, nullable str_list (poses c));
      ("dep_parents"%string, nullable int_list (dep_parents c));
      ("dep_labels"%string, nullable str_list (dep_labels c)) ].

(** The values of the mapped columns: those of [_asdict], and [type]
    (the polymorphic identity of the class), [stable_id] and
    [document_id]. *)
Definition columns (c : Sentence) : gmap string pyval :=
  <["type"%string := Atom (AStr "sentence")]>
  (<["stable_id"%string := nullable (λ x, Atom (AStr x)) (stable_id c)]>
  (<["document_id"%string := nullable (λ z, Atom (AInt z)) (document_id c)]>
  (_asdict c))).

(** [context.__getattribute__(a)]: a column, or another name of the
    namespace of the instance; a name it does not have raises
    [AttributeError]. *)
Definition __getattribute__ (c : Sentence) (a : string) : result pyval :=
  match columns c !! a with
  | Some v => Ok v
  | None =>
      match other_attributes c !! a with
      | Some v => Ok v
      | None => Raise AttributeError
      end
  end.

(** ** class TemporarySpan *)

(** An instance of [TemporarySpan]: the four attributes that [__init__]
    sets. These are the only span objects the module can build (see
    [Span] below). *)
Record span := {
  context : Sentence;
  char_start : Z;
  char_end : Z;
  meta : pyval
}.

(** [TemporarySpan(context=..., char_start=..., char_end=..., meta=...)] *)
Definition TemporarySpan (ctx : Sentence) (cs ce : Z) (m : pyval) : span :=
  {| context := ctx; char_start := cs; char_end := ce; meta := m |}.

(** The attribute namespace of a span, as another object reads it: the
    four attributes, each read without an exception. *)
Definition span_obj (s : span) : gmap string (result pyval) :=
  <["context"%string := Ok (Atom (ARef (sentence_addr (context s))))]>
  (<["char_start"%string := Ok (Atom (AInt (char_start s)))]>
  (<["char_end"%string := Ok (Atom (AInt (char_end s)))]>
  (<["meta"%string := Ok (meta s)]> ∅))).

(** [__len__] *)
Definition __len__ (self : span) : Z := char_end self - char_start self + 1.

(** The body of [__eq__] inside [try]: [and] evaluates its operands from
    left to right and stops at the first false one. *)
Definition eq_body (self : span) (other : gmap string (result pyval)) :
    result bool :=
  c ← getattr other "context";
  if negb (py_eq (Atom (ARef (sentence_addr (context self)))) c) then Ok false
  else
    cs ← getattr other "char_start";
    if negb (py_eq (Atom (AInt (char_start self))) cs) then Ok false
    else
      ce ← getattr other "char_end";
      Ok (py_eq (Atom (AInt (char_end self))) ce).

(** [__eq__]: [except AttributeError: return False]. *)
Definition __eq__ (self : span) (other : gmap string (result pyval)) :
    result bool :=
  match eq_body self other with
  | Raise AttributeError => Ok false
  | r => r
  end.



(** The [for i, co in enumerate(...)] loop of [char_to_word_index]: [i] is
    the index of the head of [cos], and [last] the value the variable [i]
    holds when the loop is entered ([None] before the first iteration). *)
Fixpoint char_to_word_index_loop (ci : Z) (i : Z) (last : option Z)
    (cos : list Z) : option Z :=
  match cos with
  | [] => last
  | co :: rest =>
      if ci =? co then Some i
      else if ci <? co then Some (i - 1)
      else char_to_word_index_loop ci (i + 1) (Some i) rest
  end.

(** [char_to_word_index]: the result is an [int] or [None]. *)
Definition char_to_word_index (self : span) (ci : Z) : option Z :=
  char_to_word_index_loop ci 0 None (char_offsets (context self)).

(** [get_word_start] *)
Definition get_word_start (self : span) : option Z :=
  char_to_word_index self (char_start self).

(** [get_word_end] *)
Definition get_word_end (self : span) : option Z :=
  char_to_word_index self (char_end self).

(** [get_n] *)
Definition get_n (self : span) : result Z :=
  py_sub_succ (get_word_end self) (get_word_start self).

(** [word_to_char_index] *)
Definition word_to_char_index (self : span) (wi : Z) : result Z :=
  py_getitem (char_offsets (context self)) wi.

(** [get_attrib_tokens]: the attribute is looked up first, then the two
    bounds are evaluated, then the slice is taken. *)
Definition get_attrib_tokens (self : span) (a : string) : result pyval :=
  v ← __getattribute__ (context self) a;
  stop ← py_succ (get_word_end self);
  py_getslice v (get_word_start self) (Some stop).

(** [get_attrib_span] *)
Definition get_attrib_span (self : span) (a sep : string) : result string :=
  if String.eqb a "words" then
    Ok (py_str_slice (text (context self)) (Some (char_start self))
          (Some (char_end self + 1)))
  else
    toks ← get_attrib_tokens self a;
    py_join sep toks.

(** [get_span] *)
Definition get_span (self : span) (sep : string) : result string :=
  get_attrib_span self "words" sep.

(** [__contains__] *)
Definition __contains__ (self other_span : span) : bool :=
  (char_start self <=? char_start other_span)
  && (char_end other_span <=? char_end self).

(** [TemporarySpan._get_instance] *)
Definition TemporarySpan_get_instance (cs ce : Z) (ctx : Sentence) : span :=
  TemporarySpan ctx cs ce (Atom ANone).

(** [self._get_instance(...)]: [self] is an instance of [TemporarySpan],
    the only class of spans that has instances, so the call is to
    [TemporarySpan._get_instance]. *)
Definition _get_instance (self : span) (cs ce : Z) (ctx : Sentence) : span :=
  TemporarySpan_get_instance cs ce ctx.

(** The key of [self[key]]: a [slice(start, stop, step)] object, each part
    an [int] or [None], or any other value. *)
Inductive key :=
  | KSlice (start stop step : option Z)
  | KValue (v : pyval).

(** [__getitem__] *)
Definition __getitem__ (self : span) (k : key) : result span :=
  match k with
  | KSlice start stop _ =>
      let cs := match start with
                | None => char_start self
                | Some o => char_start self + o
                end in
      let ce := match stop with
                | None => char_end self
                | Some o => if 0 <=? o then char_start self + o - 1
                            else char_end self + o
                end in
      Ok (_get_instance self cs ce (context self))
  | KValue _ => Raise NotImplementedError
  end.

(** ** class Span *)








(** ** Predicates of the statements *)

(** The offsets are strictly increasing. *)
Fixpoint strictly_increasing (l : list Z) : bool :=
  match l with
  | x :: (y :: _) as t => (x <? y) && strictly_increasing t
  | _ => true
  end.

(** The range invariant of a span: [0 <= char_start <= char_end < len(text)]. *)
Definition valid_range (s : span) : Prop :=
  0 <= char_start s ∧ char_start s <= char_end s
  ∧ char_end s < Z.of_nat (String.length (text (context s))).

(** The span covers the whole text of its unit. *)
Definition covers_unit (s : span) : Prop :=
  char_start s = 0
  ∧ char_end s = Z.of_nat (String.length (text (context s))) - 1.

(** ** The running example: "The cat sat." *)

(** Names that every [Sentence] has besides its columns, as far as the
    module shows them: the table name and the methods the class and
    [Context] define (each method an object of its own). *)
Definition sentence_namespace : gmap string pyval :=
  list_to_map
    [ ("__tablename__"%string, Atom (AStr "sentence"));
      ("_asdict"%string, Atom (ARef 101%positive));
      ("__repr__"%string, Atom (ARef 102%positive));
      ("__eq__"%string, Atom (ARef 103%positive));
      ("__ne__"%string, Atom (ARef 104%positive));
      ("__hash__"%string, Atom (ARef 105%positive)) ].

Definition the_cat : Sentence :=
  {| sentence_addr := 1%positive; sentence_id := Some 7;
     stable_id := Some "doc::sentence:0:12"%string; document_id := Some 3;
     document := Some 2%positive;
     position := 0; text := "The cat sat.";
     words := ["The"; "cat"; "sat"; "."]%string;
     char_offsets := [0; 4; 8; 11];
     lemmas := Some ["the"; "cat"; "sit"; "."]%string;
     poses := Some ["DT"; "NN"; "VBD"; "."]%string;
     dep_parents := Some [2; 3; 0; 3];
     dep_labels := Some ["det"; "nsubj"; "ROOT"; "punct"]%string;
     other_attributes := sentence_namespace |}.

Definition cat_sat : span := TemporarySpan the_cat 4 10 (Atom ANone).

(** The same range carrying a payload in [meta]. *)
Definition cat_sat_tagged : span :=
  TemporarySpan the_cat 4 10 (Atom (AStr "gold")).

(** A unit whose text has two blanks between its two words. *)
Definition wide_gap : Sentence :=
  {| sentence_addr := 4%positive; sentence_id := None; stable_id := None;
     document_id := None; document := None;
     position := 2; text := "The  cat";
     words := ["The"; "cat"]%string; char_offsets := [0; 5];
     lemmas := None; poses := None; dep_parents := None; dep_labels := None;
     other_attributes := sentence_namespace |}.

Definition wide_gap_span : span := TemporarySpan wide_gap 0 7 (Atom ANone).



(** A unit whose text starts with two blanks, so that its first offset
    is 2, and the span over these blanks. *)
Definition late_start : Sentence :=
  {| sentence_addr := 5%positive; sentence_id := None; stable_id := None;
     document_id := None; document := None;
     position := 3; text := "  a b";
     words := ["a"; "b"]%string; char_offsets := [2; 4];
     lemmas := None; poses := None; dep_parents := Some [2; 0];
     dep_labels := None; other_attributes := sentence_namespace |}.

Definition late_span : span := TemporarySpan late_start 0 1 (Atom ANone).

(** A unit without tokens, and a span over it. *)
Definition blank : Sentence :=
  {| sentence_addr := 3%positive; sentence_id := None; stable_id := None;
     document_id := None; document := None;
     position := 1; text := " "; words := []; char_offsets := [];
     lemmas := None; poses := None; dep_parents := None; dep_labels := None;
     other_attributes := sentence_namespace |}.

Definition blank_span : span := TemporarySpan blank 0 0 (Atom ANone).


(** [i] is the largest index whose offset is at most [ci]. *)
Definition floor_index (l : list Z) (ci : Z) (i : nat) : Prop :=
  (∃ c, l !! i = Some c ∧ c <= ci)
  ∧ ∀ j c, l !! j = Some c → c <= ci → (j <= i)%nat.

(** [ci] lies in token [i]: at or after its offset and before the next
    offset, when there is a next one. *)
Definition in_token (l : list Z) (ci : Z) (i : nat) : Prop :=
  (∃ c, l !! i = Some c ∧ c <= ci)
  ∧ ∀ c', l !! S i = Some c' → ci < c'.

(** The items of [l] at the indices [i] to [j], both included. *)
Definition slice_incl {A : Type} (l : list A) (i j : Z) : list A :=
  take (Z.to_nat (j - i + 1)) (drop (Z.to_nat i) l).

(** The characters of [s] at the positions [i] to [j], both included. *)
Definition substring_incl (s : string) (i j : Z) : string :=
  substring (Z.to_nat i) (Z.to_nat (j - i + 1)) s.

(** [__hash__]: the sum of the hashes of the unit and of the two
    endpoints. [py_id] is the builtin [id], which [Context.__hash__]
    returns for the unit, and [py_hash] the builtin [hash] on integers. *)
Definition __hash__ (py_id : addr → Z) (py_hash : Z → Z) (self : span) : Z :=
  py_id (sentence_addr (context self)) + py_hash (char_start self)
  + py_hash (char_end self).

(** The number of leading offsets that are below [ci]. *)
Fixpoint prefix_below (ci : Z) (l : list Z) : nat :=
  match l with
  | [] => 0%nat
  | c :: l' => if c <? ci then S (prefix_below ci l') else 0%nat
  end.

(** The last two tokens of the running example. *)
Definition sat_dot : span := TemporarySpan the_cat 8 11 (Atom ANone).

(** ** Strictly increasing offsets *)

Lemma strictly_increasing_cons (x : Z) (l : list Z) :
  strictly_increasing (x :: l) = true →
  strictly_increasing l = true ∧ ∀ j c, l !! j = Some c → x < c.
Proof.
  revert x. induction l as [|y l IH]; intros x H.
  - split; [reflexivity|]. intros j c Hj. destruct j; discriminate.
  - change (strictly_increasing (x :: y :: l))
      with ((x <? y) && strictly_increasing (y :: l)) in H.
    apply andb_true_iff in H as [Hxy Hs]. apply Z.ltb_lt in Hxy.
    split; [exact Hs|].
    intros [|j] c Hj; simpl in Hj.
    + injection Hj as <-. exact Hxy.
    + destruct (IH y Hs) as [_ Hy]. specialize (Hy j c Hj). lia.
Qed.

Lemma strictly_increasing_lookup_lt (l : list Z) (i j : nat) (x y : Z) :
  strictly_increasing l = true → (i < j)%nat →
  l !! i = Some x → l !! j = Some y → x < y.
Proof.
  revert i j. induction l as [|a l IH]; intros i j Hs Hij Hi Hj.
  - destruct i; discriminate.
  - destruct (strictly_increasing_cons a l Hs) as [Hs' Ha].
    destruct j as [|j]; [lia|]. simpl in Hj.
    destruct i as [|i]; simpl in Hi.
    + injection Hi as <-. eauto.
    + apply (IH i j); [assumption|lia|assumption|assumption].
Qed.

Lemma strictly_increasing_adjacent (l : list Z) :
  strictly_increasing l = true ↔
  ∀ i x y, l !! i = Some x → l !! S i = Some y → x < y.
Proof.
  split.
  - intros Hs i x y Hx Hy.
    exact (strictly_increasing_lookup_lt l i (S i) x y Hs (Nat.lt_succ_diag_r i) Hx Hy).
  - induction l as [|a [|b l] IH]; intros Hadj; try reflexivity.
    change (strictly_increasing (a :: b :: l))
      with ((a <? b) && strictly_increasing (b :: l)).
    apply andb_true_iff. split.
    + apply Z.ltb_lt. exact (Hadj 0%nat a b eq_refl eq_refl).
    + apply IH. intros i x y Hx Hy. exact (Hadj (S i) x y Hx Hy).
Qed.

(** ** The scan of [char_to_word_index] *)

Lemma loop_before_first (ci k c0 : Z) (last : option Z) (rest : list Z) :
  ci < c0 → char_to_word_index_loop ci k last (c0 :: rest) = Some (k - 1).
Proof.
  intros H. simpl.
  destruct (Z.eqb_spec ci c0); [lia|].
  destruct (Z.ltb_spec ci c0); [reflexivity|lia].
Qed.

Lemma loop_floor (cos : list Z) :
  ∀ (ci k c0 : Z) (last : option Z),
    strictly_increasing cos = true → cos !! 0%nat = Some c0 → c0 <= ci →
    ∃ i : nat, char_to_word_index_loop ci k last cos = Some (k + Z.of_nat i)
               ∧ floor_index cos ci i.
Proof.
  induction cos as [|c cos IH]; intros ci k c0 last Hs H0 Hle; [discriminate|].
  simpl in H0. injection H0 as ->.
  destruct (strictly_increasing_cons c0 cos Hs) as [Hs' Hgt].
  simpl. destruct (Z.eqb_spec ci c0) as [->|Hne].
  - exists 0%nat. split; [f_equal; lia|]. split; [exists c0; split; [reflexivity|lia]|].
    intros [|j] c Hj Hc; [lia|]. simpl in Hj. specialize (Hgt j c Hj). lia.
  - destruct (Z.ltb_spec ci c0); [lia|].
    destruct cos as [|c1 cos'].
    + exists 0%nat. simpl. split; [f_equal; lia|].
      split; [exists c0; split; [reflexivity|lia]|].
      intros [|j] c Hj Hc; [lia|]. destruct j; discriminate.
    + destruct (Z.lt_ge_cases ci c1) as [Hlt|Hge].
      * exists 0%nat. rewrite loop_before_first by exact Hlt.
        split; [f_equal; lia|]. split; [exists c0; split; [reflexivity|lia]|].
        intros [|j] c Hj Hc; [lia|]. simpl in Hj.
        destruct j as [|j]; simpl in Hj.
        -- injection Hj as <-. lia.
        -- destruct (strictly_increasing_cons c1 cos' Hs') as [_ H1].
           specialize (H1 j c Hj). lia.
      * destruct (IH ci (k + 1) c1 (Some k) Hs' eq_refl Hge) as (i & Hi & [Hex Hmax]).
        exists (S i). split; [rewrite Hi; f_equal; lia|]. split.
        -- exact Hex.
        -- intros [|j] c Hj Hc; [lia|]. simpl in Hj.
           specialize (Hmax j c Hj Hc). lia.
Qed.

Lemma floor_index_in_token (l : list Z) (ci : Z) (i : nat) :
  floor_index l ci i → in_token l ci i.
Proof.
  intros [Hex Hmax]. split; [exact Hex|].
  intros c' Hc'. destruct (Z.lt_ge_cases ci c') as [|Hge]; [assumption|].
  specialize (Hmax (S i) c' Hc'). lia.
Qed.

Lemma in_token_unique (l : list Z) (ci : Z) (i i' : nat) :
  strictly_increasing l = true →
  floor_index l ci i → in_token l ci i' → i' = i.
Proof.
  intros Hs [(c & Hc & Hle) Hmax] [(c' & Hc' & Hle') Hnext].
  pose proof (Hmax i' c' Hc' Hle') as Hi'.
  destruct (decide (i' = i)) as [|Hne]; [assumption|exfalso].
  assert (Hlt : (S i' <= i)%nat) by lia.
  destruct (lookup_lt_is_Some_2 l (S i')) as [d Hd].
  { apply lookup_lt_Some in Hc. lia. }
  specialize (Hnext d Hd).
  destruct (decide (S i' = i)) as [Heq|Hne'].
  - subst i. rewrite Hc in Hd. injection Hd as <-. lia.
  - pose proof (strictly_increasing_lookup_lt l (S i') i d c Hs ltac:(lia) Hd Hc). lia.
Qed.

(** C1. For a span whose unit has at least one token and strictly
    increasing [char_offsets], [char_to_word_index ci] returns [-1] when
    [ci] precedes the first offset; otherwise it returns the largest index
    [i] with [char_offsets[i] <= ci], which is also the unique [i] whose
    token contains [ci] ([char_offsets[i] <= ci < char_offsets[i+1]], or
    the last index when [ci] is at or beyond the last offset). *)
Theorem char_to_word_index_floor (s : span) (ci c0 : Z) :
  strictly_increasing (char_offsets (context s)) = true →
  char_offsets (context s) !! 0%nat = Some c0 →
  (ci < c0 → char_to_word_index s ci = Some (-1))
  ∧ (c0 <= ci →
     ∃ i : nat,
       char_to_word_index s ci = Some (Z.of_nat i)
       ∧ (i < length (char_offsets (context s)))%nat
       ∧ floor_index (char_offsets (context s)) ci i
       ∧ in_token (char_offsets (context s)) ci i
       ∧ ∀ i', in_token (char_offsets (context s)) ci i' → i' = i).
Proof.
  intros Hs H0. unfold char_to_word_index. split.
  - intros Hlt. destruct (char_offsets (context s)) as [|c rest]; [discriminate|].
    simpl in H0. injection H0 as ->.
    rewrite loop_before_first by exact Hlt. reflexivity.
  - intros Hle.
    destruct (loop_floor _ ci 0 c0 None Hs H0 Hle) as (i & Hi & Hfl).
    exists i. split; [rewrite Hi; f_equal; lia|].
    split; [destruct Hfl as [(c & Hc & _) _]; eapply lookup_lt_Some; exact Hc|].
    split; [exact Hfl|].
    split; [apply floor_index_in_token; exact Hfl|].
    intros i' Hin. eapply in_token_unique; eassumption.
Qed.

Lemma char_to_word_index_floor_witness :
  char_to_word_index cat_sat (-1) = Some (-1)
  ∧ char_to_word_index cat_sat 10 = Some 2.
Proof.
  destruct (char_to_word_index_floor cat_sat (-1) 0 eq_refl eq_refl) as [Hlo _].
  destruct (char_to_word_index_floor cat_sat 10 0 eq_refl eq_refl) as [_ Hhi].
  split; [apply Hlo; lia|].
  destruct (Hhi ltac:(lia)) as (i & Hi & _ & _ & _ & Huniq).
  rewrite Hi. rewrite <- (Huniq 2%nat); [reflexivity|].
  split; [exists 8; split; [reflexivity|lia]|].
  intros c' Hc'. injection Hc' as <-. lia.
Defined.

(** ** List indexing *)

Lemma py_getitem_in_range {A : Type} (l : list A) (i : Z) :
  0 <= i < Z.of_nat (length l) →
  ∃ x, l !! Z.to_nat i = Some x ∧ py_getitem l i = Ok x.
Proof.
  intros Hi. unfold py_getitem.
  destruct (Z.ltb_spec i 0); [lia|].
  destruct (Z.ltb_spec i 0); [lia|].
  destruct (Z.leb_spec (Z.of_nat (length l)) i); [lia|]. simpl.
  destruct (lookup_lt_is_Some_2 l (Z.to_nat i)) as [x Hx]; [lia|].
  exists x. rewrite Hx. split; reflexivity.
Qed.

Lemma py_getitem_from_end {A : Type} (l : list A) (i : Z) :
  - Z.of_nat (length l) <= i < 0 →
  ∃ x, l !! Z.to_nat (i + Z.of_nat (length l)) = Some x ∧ py_getitem l i = Ok x.
Proof.
  intros Hi. unfold py_getitem.
  destruct (Z.ltb_spec i 0); [|lia].
  destruct (Z.ltb_spec (i + Z.of_nat (length l)) 0); [lia|].
  destruct (Z.leb_spec (Z.of_nat (length l)) (i + Z.of_nat (length l))); [lia|].
  simpl.
  destruct (lookup_lt_is_Some_2 l (Z.to_nat (i + Z.of_nat (length l)))) as [x Hx]; [lia|].
  exists x. rewrite Hx. split; reflexivity.
Qed.

Lemma py_getitem_out_of_range {A : Type} (l : list A) (i : Z) :
  i < - Z.of_nat (length l) ∨ Z.of_nat (length l) <= i →
  py_getitem l i = Raise IndexError.
Proof.
  intros Hi. unfold py_getitem.
  destruct (Z.ltb_spec i 0).
  - destruct (Z.ltb_spec (i + Z.of_nat (length l)) 0); [reflexivity|lia].
  - destruct (Z.ltb_spec i 0); [lia|].
    destruct (Z.leb_spec (Z.of_nat (length l)) i); [reflexivity|lia].
Qed.

(** C5. Over strictly increasing [char_offsets], for every token index
    [wi] with [0 <= wi < n], [word_to_char_index wi] returns a character
    index that [char_to_word_index] maps back to [wi]. *)
Theorem char_to_word_index_left_inverse (s : span) (wi : Z) :
  strictly_increasing (char_offsets (context s)) = true →
  0 <= wi < Z.of_nat (length (char_offsets (context s))) →
  ∃ ci, word_to_char_index s wi = Ok ci ∧ char_to_word_index s ci = Some wi.
Proof.
  intros Hs Hwi. unfold word_to_char_index, char_to_word_index.
  destruct (py_getitem_in_range _ wi Hwi) as (x & Hx & Hget).
  exists x. split; [exact Hget|].
  destruct (lookup_lt_is_Some_2 (char_offsets (context s)) 0) as [c0 H0]; [lia|].
  assert (Hc0 : c0 <= x).
  { destruct (decide (Z.to_nat wi = 0%nat)) as [E|E].
    - rewrite E, H0 in Hx. injection Hx as <-. lia.
    - pose proof (strictly_increasing_lookup_lt _ 0 (Z.to_nat wi) c0 x Hs
                    ltac:(lia) H0 Hx). lia. }
  destruct (loop_floor _ x 0 c0 None Hs H0 Hc0) as (i & Hi & Hfl).
  assert (Hin : in_token (char_offsets (context s)) x (Z.to_nat wi)).
  { split; [exists x; split; [exact Hx|lia]|].
    intros c' Hc'.
    exact (strictly_increasing_lookup_lt _ _ _ x c' Hs (Nat.lt_succ_diag_r _) Hx Hc'). }
  pose proof (in_token_unique _ _ _ _ Hs Hfl Hin) as <-.
  rewrite Hi. f_equal. lia.
Qed.

Lemma char_to_word_index_left_inverse_witness :
  ∃ ci, word_to_char_index cat_sat 2 = Ok ci
        ∧ char_to_word_index cat_sat ci = Some 2.
Proof.
  apply (char_to_word_index_left_inverse cat_sat 2); [reflexivity|].
  simpl. lia.
Defined.

(** C6, as the code has it. [word_to_char_index wi] is Python's
    [char_offsets[wi]]: it returns [char_offsets[wi]] for [0 <= wi < n],
    returns [char_offsets[n + wi]] for [-n <= wi < 0] (a negative index
    counts from the end), and raises [IndexError] only for [wi >= n] and
    [wi < -n]. *)
Theorem word_to_char_index_cases (s : span) (wi : Z) :
  (0 <= wi < Z.of_nat (length (char_offsets (context s))) →
   ∃ c, char_offsets (context s) !! Z.to_nat wi = Some c
        ∧ word_to_char_index s wi = Ok c)
  ∧ (- Z.of_nat (length (char_offsets (context s))) <= wi < 0 →
     ∃ c, char_offsets (context s)
            !! Z.to_nat (wi + Z.of_nat (length (char_offsets (context s)))) = Some c
          ∧ word_to_char_index s wi = Ok c)
  ∧ (wi < - Z.of_nat (length (char_offsets (context s)))
     ∨ Z.of_nat (length (char_offsets (context s))) <= wi →
     word_to_char_index s wi = Raise IndexError).
Proof.
  unfold word_to_char_index. split; [|split].
  - apply py_getitem_in_range.
  - apply py_getitem_from_end.
  - apply py_getitem_out_of_range.
Qed.

Lemma word_to_char_index_cases_witness :
  word_to_char_index cat_sat 2 = Ok 8
  ∧ word_to_char_index cat_sat (-3) = Ok 4
  ∧ word_to_char_index cat_sat 4 = Raise IndexError
  ∧ word_to_char_index cat_sat (-5) = Raise IndexError.
Proof.
  destruct (word_to_char_index_cases cat_sat 2) as (H & _ & _).
  destruct (word_to_char_index_cases cat_sat (-3)) as (_ & H' & _).
  destruct (word_to_char_index_cases cat_sat 4) as (_ & _ & Hhi).
  destruct (word_to_char_index_cases cat_sat (-5)) as (_ & _ & Hlo).
  destruct H as (c & Hc & ->); [simpl; lia|].
  destruct H' as (c' & Hc' & ->); [simpl; lia|].
  vm_compute in Hc, Hc'. injection Hc as <-. injection Hc' as <-.
  split; [reflexivity|]. split; [reflexivity|].
  split; [apply Hhi|apply Hlo]; simpl; lia.
Defined.

(** C6 fails as stated: the token index [-1] lies outside [[0, 4)], and
    [word_to_char_index] returns the offset of the last token instead of
    failing. *)
Lemma word_to_char_index_negative_counterexample :
  ¬ (0 <= -1 < Z.of_nat (length (char_offsets (context cat_sat))))
  ∧ word_to_char_index cat_sat (-1) = Ok 11.
Proof. split; [simpl; lia|reflexivity]. Qed.

(** C9. Over a unit whose [char_offsets] is empty, [char_to_word_index]
    returns [None] for every character index (neither [-1] nor a token
    index), and so do [get_word_start] and [get_word_end]. *)
Theorem char_to_word_index_no_tokens (s : span) (ci : Z) :
  char_offsets (context s) = [] →
  char_to_word_index s ci = None
  ∧ get_word_start s = None
  ∧ get_word_end s = None.
Proof.
  intros H. unfold get_word_start, get_word_end, char_to_word_index.
  rewrite H. repeat split.
Qed.

Lemma char_to_word_index_no_tokens_witness :
  char_to_word_index blank_span 0 = None
  ∧ get_word_start blank_span = None
  ∧ get_word_end blank_span = None.
Proof. apply (char_to_word_index_no_tokens blank_span 0). reflexivity. Defined.

(** ** Slices of strings and lists *)

Lemma length_substring (s : string) :
  ∀ n m, String.length (substring n m s) = Nat.min m (String.length s - n).
Proof.
  induction s as [|c s IH]; intros [|n] [|m]; simpl; try reflexivity.
  - rewrite IH. rewrite Nat.sub_0_r. reflexivity.
  - rewrite IH. reflexivity.
  - rewrite IH. reflexivity.
Qed.

Lemma substring_all (s : string) : substring 0 (String.length s) s = s.
Proof. induction s as [|c s IH]; simpl; [reflexivity|]. by rewrite IH. Qed.

Lemma py_slice_range_within (n a b : Z) :
  0 <= a → a <= b + 1 → b < n →
  py_slice_range n (Some a) (Some (b + 1)) = (Z.to_nat a, Z.to_nat (b - a + 1)).
Proof.
  intros Ha Hab Hb. unfold py_slice_range, py_slice_bound. simpl.
  destruct (Z.ltb_spec a 0); [lia|].
  destruct (Z.ltb_spec (b + 1) 0); [lia|].
  f_equal; lia.
Qed.

Lemma py_str_slice_within (s : string) (a b : Z) :
  0 <= a → a <= b + 1 → b < Z.of_nat (String.length s) →
  py_str_slice s (Some a) (Some (b + 1)) = substring_incl s a b.
Proof.
  intros Ha Hab Hb. unfold py_str_slice, substring_incl.
  by rewrite py_slice_range_within.
Qed.

Lemma py_list_slice_within {A : Type} (l : list A) (a b : Z) :
  0 <= a → a <= b + 1 → b < Z.of_nat (length l) →
  py_list_slice l (Some a) (Some (b + 1)) = slice_incl l a b.
Proof.
  intros Ha Hab Hb. unfold py_list_slice, slice_incl.
  by rewrite py_slice_range_within.
Qed.

Lemma py_list_slice_fmap {A B : Type} (f : A → B) (l : list A) (start stop : option Z) :
  py_list_slice (f <$> l) start stop = f <$> py_list_slice l start stop.
Proof.
  unfold py_list_slice. rewrite length_fmap, fmap_take, fmap_drop. reflexivity.
Qed.

Lemma strs_of_fmap (l : list string) : strs_of (AStr <$> l) = Some l.
Proof.
  induction l as [|x l IH]; [reflexivity|].
  change (strs_of (AStr <$> x :: l)) with (cons x <$> strs_of (AStr <$> l)).
  by rewrite IH.
Qed.

Lemma char_to_word_index_floor_index (s : span) (ci c0 : Z) :
  strictly_increasing (char_offsets (context s)) = true →
  char_offsets (context s) !! 0%nat = Some c0 → c0 <= ci →
  ∃ i : nat, char_to_word_index s ci = Some (Z.of_nat i)
             ∧ floor_index (char_offsets (context s)) ci i.
Proof.
  intros Hs H0 Hle. unfold char_to_word_index.
  destruct (loop_floor _ ci 0 c0 None Hs H0 Hle) as (i & Hi & Hfl).
  exists i. split; [rewrite Hi; f_equal; lia|exact Hfl].
Qed.

Lemma get_span_within (s : span) (sep : string) :
  valid_range s →
  get_span s sep
  = Ok (substring_incl (text (context s)) (char_start s) (char_end s)).
Proof.
  intros (H0 & Hse & Hlen). unfold get_span, get_attrib_span. simpl.
  rewrite py_str_slice_within by lia. reflexivity.
Qed.

(** ** Equality of spans *)

Lemma getattr_span_obj_context (t : span) :
  getattr (span_obj t) "context" = Ok (Atom (ARef (sentence_addr (context t)))).
Proof. unfold getattr, span_obj. by rewrite lookup_insert_eq. Qed.

Lemma getattr_span_obj_char_start (t : span) :
  getattr (span_obj t) "char_start" = Ok (Atom (AInt (char_start t))).
Proof.
  unfold getattr, span_obj.
  rewrite lookup_insert_ne by discriminate. by rewrite lookup_insert_eq.
Qed.

Lemma getattr_span_obj_char_end (t : span) :
  getattr (span_obj t) "char_end" = Ok (Atom (AInt (char_end t))).
Proof.
  unfold getattr, span_obj.
  do 2 (rewrite lookup_insert_ne by discriminate). by rewrite lookup_insert_eq.
Qed.

Lemma eq_span_obj (s t : span) :
  __eq__ s (span_obj t) = Ok true ↔
  sentence_addr (context s) = sentence_addr (context t)
  ∧ char_start s = char_start t ∧ char_end s = char_end t.
Proof.
  unfold __eq__, eq_body.
  rewrite getattr_span_obj_context, getattr_span_obj_char_start,
    getattr_span_obj_char_end.
  unfold py_eq. simpl.
  repeat (case_bool_decide; simpl); split; intros Heq; try discriminate;
    try reflexivity; try (destruct Heq as (? & ? & ?); exfalso; congruence).
  repeat split; congruence.
Qed.

(** ** Slicing *)

Lemma getitem_slice_fields (s : span) (start stop step : option Z) :
  ∃ s', __getitem__ s (KSlice start stop step) = Ok s'
        ∧ s' = TemporarySpan (context s) (char_start s') (char_end s') (Atom ANone)
        ∧ context s' = context s
        ∧ char_start s' = from_option (λ o, char_start s + o) (char_start s) start
        ∧ char_end s' = from_option
            (λ o, if 0 <=? o then char_start s + o - 1 else char_end s + o)
            (char_end s) stop
        ∧ meta s' = Atom ANone
        ∧ span_obj s' !! "id"%string = None.
Proof.
  unfold __getitem__, _get_instance. eexists. split; [reflexivity|].
  destruct s as [ctx cs ce m], start, stop; simpl; repeat split.
Qed.

(** C2. Slicing a span with [start], [stop] yields a span over the same
    unit with [char_start' = char_start] when [start] is absent and
    [char_start + start] otherwise, and [char_end' = char_end] when [stop]
    is absent, [char_start + stop - 1] when [stop >= 0] and
    [char_end + stop] when [stop < 0]. With neither bound the result is
    value-equal to the original, and with [stop = -1] the range loses
    exactly its last character: on a span within its text and longer
    than one character, the text of the slice is the text of the span
    without its last character. *)
Theorem getitem_slice_range (s : span) (start stop step : option Z) :
  ∃ s', __getitem__ s (KSlice start stop step) = Ok s'
        ∧ context s' = context s
        ∧ (start = None → char_start s' = char_start s)
        ∧ (∀ o, start = Some o → char_start s' = char_start s + o)
        ∧ (stop = None → char_end s' = char_end s)
        ∧ (∀ o, stop = Some o → 0 <= o → char_end s' = char_start s + o - 1)
        ∧ (∀ o, stop = Some o → o < 0 → char_end s' = char_end s + o)
        ∧ (start = None → stop = None →
           __eq__ s (span_obj s') = Ok true ∧ __eq__ s' (span_obj s) = Ok true)
        ∧ (stop = Some (-1) →
           char_end s' = char_end s - 1
           ∧ (start = None →
              char_start s' = char_start s ∧ __len__ s' = __len__ s - 1
              ∧ (valid_range s → char_start s < char_end s →
                 ∀ sep, ∃ r r',
                   get_span s sep = Ok r ∧ get_span s' sep = Ok r'
                   ∧ String.length r = S (String.length r')
                   ∧ ∀ k, (k < String.length r')%nat →
                          String.get k r' = String.get k r))).
Proof.
  destruct (getitem_slice_fields s start stop step)
    as (s' & Hget & _ & Hctx & Hcs & Hce & _).
  exists s'. split; [exact Hget|]. split; [exact Hctx|].
  split; [intros ->; exact Hcs|].
  split; [intros o ->; exact Hcs|].
  split; [intros ->; exact Hce|].
  split.
  { intros o -> Ho. simpl in Hce. destruct (Z.leb_spec 0 o); [exact Hce|lia]. }
  split.
  { intros o -> Ho. simpl in Hce. destruct (Z.leb_spec 0 o); [lia|exact Hce]. }
  split.
  { intros -> ->. simpl in Hcs, Hce.
    split; apply eq_span_obj; rewrite Hctx, Hcs, Hce; repeat split. }
  intros ->. simpl in Hce. split; [lia|].
  intros ->. simpl in Hcs. unfold __len__. split; [exact Hcs|].
  split; [lia|].
  intros (H0 & Hse & Hlen) Hlong sep.
  assert (Hv' : valid_range s').
  { unfold valid_range. rewrite Hctx, Hcs, Hce. lia. }
  exists (substring_incl (text (context s)) (char_start s) (char_end s)),
    (substring_incl (text (context s)) (char_start s) (char_end s - 1)).
  split; [apply get_span_within; unfold valid_range; lia|].
  split; [rewrite (get_span_within s' sep Hv'), Hctx, Hcs, Hce; reflexivity|].
  unfold substring_incl. rewrite !length_substring.
  split; [lia|].
  intros k Hk. rewrite !substring_correct1 by lia. reflexivity.
Qed.

Lemma getitem_slice_range_witness :
  ∃ s', __getitem__ cat_sat (KSlice None (Some (-4)) None) = Ok s'
        ∧ context s' = the_cat ∧ char_start s' = 4 ∧ char_end s' = 6.
Proof.
  destruct (getitem_slice_range cat_sat None (Some (-4)) None)
    as (s' & Hget & Hctx & Hcs & _ & _ & _ & Hce & _).
  exists s'. split; [exact Hget|]. split; [exact Hctx|].
  split; [exact (Hcs eq_refl)|].
  rewrite (Hce (-4) eq_refl); [reflexivity|lia].
Defined.

(** C7, as the code has it. Every slice key is accepted, and its step is
    not read: the result is that of the same slice without a step. Only a
    key that is not a slice fails, with [NotImplementedError]. *)
Theorem getitem_step_ignored (s : span) :
  (∀ start stop step,
     ∃ s', __getitem__ s (KSlice start stop step) = Ok s'
           ∧ __getitem__ s (KSlice start stop None) = Ok s')
  ∧ ∀ v, __getitem__ s (KValue v) = Raise NotImplementedError.
Proof.
  split.
  - intros start stop step. eexists. split; reflexivity.
  - intros v. reflexivity.
Qed.

(** C7 fails as stated: the stepped slice [[0:7:2]] of a span does not
    fail; it returns the span of the contiguous slice [[0:7]]. *)
Lemma getitem_stepped_slice_counterexample :
  __getitem__ cat_sat (KSlice (Some 0) (Some 7) (Some 2)) = Ok cat_sat.
Proof. reflexivity. Qed.


(** ** Promotion *)








(** ** Attribute projection *)

Lemma loop_is_some (cos : list Z) :
  ∀ (ci k : Z) (last : option Z),
    cos ≠ [] ∨ is_Some last →
    is_Some (char_to_word_index_loop ci k last cos).
Proof.
  induction cos as [|co rest IH]; intros ci k last H.
  - destruct H as [H|H]; [congruence|exact H].
  - simpl. destruct (ci =? co); [eauto|].
    destruct (ci <? co); [eauto|].
    apply IH. right. eauto.
Qed.

Lemma char_to_word_index_is_some (s : span) (ci : Z) :
  char_offsets (context s) ≠ [] → is_Some (char_to_word_index s ci).
Proof. intros H. apply loop_is_some. left. exact H. Qed.

(** C4, as the code has it. On a span within the bounds of its text,
    [get_attrib_span "words"] returns the characters of the text at the
    positions [char_start] to [char_end], both included, whatever the
    separator; on a span covering the unit it returns the text. For any
    other attribute whose value is a list, on a unit with at least one
    token, it takes the slice of the list from [get_word_start()] to
    [get_word_end() + 1], which holds the items from [get_word_start()]
    to [get_word_end()], both included, when these indices lie in the
    list; when every item of the slice is a string it returns them
    joined with the separator, and when one is not it raises
    [TypeError]. *)
Theorem get_attrib_span_cases (s : span) (a sep : string) :
  (valid_range s →
   ∃ r, get_attrib_span s "words" sep = Ok r
        ∧ r = substring_incl (text (context s)) (char_start s) (char_end s)
        ∧ String.length r = Z.to_nat (char_end s - char_start s + 1)
        ∧ ∀ k, (k < String.length r)%nat →
               String.get k r
               = String.get (k + Z.to_nat (char_start s)) (text (context s)))
  ∧ (covers_unit s → get_attrib_span s "words" sep = Ok (text (context s)))
  ∧ (a ≠ "words"%string →
     ∀ l : list atom,
       __getattribute__ (context s) a = Ok (PList l) →
       char_offsets (context s) ≠ [] →
       ∃ ws we : Z,
         get_word_start s = Some ws
         ∧ get_word_end s = Some we
         ∧ (∀ toks,
              strs_of (py_list_slice l (Some ws) (Some (we + 1))) = Some toks →
              get_attrib_span s a sep = Ok (String.concat sep toks))
         ∧ (strs_of (py_list_slice l (Some ws) (Some (we + 1))) = None →
            get_attrib_span s a sep = Raise TypeError)
         ∧ (0 <= ws → ws <= we + 1 → we < Z.of_nat (length l) →
            py_list_slice l (Some ws) (Some (we + 1)) = slice_incl l ws we)).
Proof.
  split; [|split].
  - intros (H0 & Hse & Hlen). unfold get_attrib_span. simpl.
    eexists. split; [reflexivity|].
    rewrite py_str_slice_within by lia.
    split; [reflexivity|]. unfold substring_incl.
    split.
    + rewrite length_substring. lia.
    + intros k Hk. rewrite length_substring in Hk.
      apply substring_correct1. lia.
  - intros [Hcs Hce]. unfold get_attrib_span. simpl. f_equal.
    rewrite Hcs, Hce.
    rewrite py_str_slice_within by lia.
    unfold substring_incl.
    replace (Z.to_nat (Z.of_nat (String.length (text (context s))) - 1 - 0 + 1))
      with (String.length (text (context s))) by lia.
    apply substring_all.
  - intros Ha l Hattr Hne.
    destruct (char_to_word_index_is_some s (char_start s) Hne) as [ws Hws].
    destruct (char_to_word_index_is_some s (char_end s) Hne) as [we Hwe].
    exists ws, we. split; [exact Hws|]. split; [exact Hwe|].
    unfold get_attrib_span.
    destruct (String.eqb_spec a "words") as [|_]; [contradiction|].
    unfold get_attrib_tokens, get_word_end, get_word_start.
    rewrite Hattr, Hwe, Hws. simpl.
    split; [intros toks ->; reflexivity|].
    split; [intros ->; reflexivity|].
    intros H0 Hle Hlt. apply py_list_slice_within; lia.
Qed.

Lemma get_attrib_span_cases_witness :
  get_attrib_span cat_sat "words" "_" = Ok "cat sat"%string
  ∧ get_attrib_span cat_sat "lemmas" "_" = Ok "cat_sit"%string
  ∧ get_attrib_span late_span "dep_parents" "_" = Ok ""%string.
Proof.
  destruct (get_attrib_span_cases cat_sat "lemmas" "_") as (Hw & _ & Ha).
  destruct (get_attrib_span_cases late_span "dep_parents" "_") as (_ & _ & Hb).
  split; [|split].
  - destruct Hw as (r & -> & -> & _); [|reflexivity].
    unfold valid_range. simpl. lia.
  - edestruct (Ha ltac:(discriminate))
      as (ws & we & Hws & Hwe & Hjoin & _); [reflexivity|discriminate|].
    vm_compute in Hws, Hwe. injection Hws as <-. injection Hwe as <-.
    exact (Hjoin ["cat"; "sit"]%string eq_refl).
  - edestruct (Hb ltac:(discriminate))
      as (ws & we & Hws & Hwe & Hjoin & _); [reflexivity|discriminate|].
    vm_compute in Hws, Hwe. injection Hws as <-. injection Hwe as <-.
    exact (Hjoin [] eq_refl).
Defined.

(** C4 fails as stated: [dep_parents] is an attribute present in the unit,
    its items are integers, and joining a slice that holds some of them
    raises [TypeError]; and on a unit without tokens the end of the word
    range is [None], so that the attribute [char_offsets], an empty list,
    is not sliced and [TypeError] is raised. *)
Lemma get_attrib_span_join_counterexample :
  __getattribute__ (context cat_sat) "dep_parents" = Ok (int_list [2; 3; 0; 3])
  ∧ get_attrib_tokens cat_sat "dep_parents" = Ok (int_list [3; 0])
  ∧ get_attrib_span cat_sat "dep_parents" " " = Raise TypeError
  ∧ __getattribute__ (context blank_span) "char_offsets" = Ok (int_list [])
  ∧ get_attrib_span blank_span "char_offsets" " " = Raise TypeError.
Proof. repeat split. Qed.

(** The raw-text path keeps the characters between the tokens: it is not
    the join of the tokens. *)
Example get_span_keeps_spacing :
  get_span wide_gap_span " " = Ok "The  cat"%string
  ∧ get_attrib_tokens wide_gap_span "words" = Ok (str_list ["The"; "cat"]%string)
  ∧ String.concat " " ["The"; "cat"]%string = "The cat"%string.
Proof. repeat split. Qed.

(** ** Containment and token count *)

Lemma contains_refl (s : span) : __contains__ s s = true.
Proof. unfold __contains__. apply andb_true_iff. split; apply Z.leb_le; lia. Qed.

Lemma contains_antisym (s t : span) :
  __contains__ s t = true → __contains__ t s = true →
  char_start s = char_start t ∧ char_end s = char_end t.
Proof.
  unfold __contains__. intros Hst Hts.
  apply andb_true_iff in Hst as [H1 H2]. apply andb_true_iff in Hts as [H3 H4].
  apply Z.leb_le in H1, H2, H3, H4. lia.
Qed.

Lemma get_n_no_tokens (s : span) :
  char_offsets (context s) = [] → get_n s = Raise TypeError.
Proof.
  intros H. unfold get_n, get_word_end, get_word_start, char_to_word_index.
  rewrite H. reflexivity.
Qed.

(** The scenario of the running example: the span [[4, 10]] covers the
    tokens 1 to 2 and reads "cat sat"; its slice [[:-4]] has the range
    [[4, 6]] and reads "cat". *)
Example the_cat_scenario :
  get_word_start cat_sat = Some 1
  ∧ get_word_end cat_sat = Some 2
  ∧ get_n cat_sat = Ok 2
  ∧ get_span cat_sat " " = Ok "cat sat"%string
  ∧ __getitem__ cat_sat (KSlice None (Some (-4)) None)
    = Ok (TemporarySpan the_cat 4 6 (Atom ANone))
  ∧ get_span (TemporarySpan the_cat 4 6 (Atom ANone)) " " = Ok "cat"%string.
Proof. repeat split. Qed.

(** ** The scan on arbitrary offsets *)

Lemma prefix_below_le_length (ci : Z) (l : list Z) :
  (prefix_below ci l <= length l)%nat.
Proof.
  induction l as [|c l IH]; simpl; [lia|]. destruct (c <? ci); lia.
Qed.

Lemma loop_prefix_below (cos : list Z) :
  ∀ (ci k : Z) (last : option Z),
    cos ≠ [] →
    char_to_word_index_loop ci k last cos
    = Some (k + (if decide (cos !! prefix_below ci cos = Some ci)
                 then Z.of_nat (prefix_below ci cos)
                 else Z.of_nat (prefix_below ci cos) - 1)).
Proof.
  induction cos as [|co rest IH]; intros ci k last Hne; [congruence|].
  simpl. destruct (Z.eqb_spec ci co) as [->|Hneq].
  - destruct (Z.ltb_spec co co); [lia|]. simpl.
    destruct (decide (Some co = Some co)); [f_equal; lia|congruence].
  - destruct (Z.ltb_spec ci co) as [Hlt|Hge].
    + destruct (Z.ltb_spec co ci); [lia|]. simpl.
      destruct (decide (Some co = Some ci)) as [E|_]; [congruence|f_equal; lia].
    + destruct (Z.ltb_spec co ci); [|lia]. simpl.
      destruct rest as [|c1 rest'].
      * simpl. destruct (decide (None = Some ci)); [congruence|f_equal; lia].
      * rewrite (IH ci (k + 1) (Some k)) by congruence.
        destruct (decide ((c1 :: rest') !! prefix_below ci (c1 :: rest') = Some ci));
          f_equal; lia.
Qed.

(** X1. Whatever the order of the offsets, on a unit with at least one
    token [char_to_word_index ci] returns [p] when the offset at [p] is
    [ci] and [p - 1] otherwise, where [p] is the number of leading offsets
    below [ci]; the result always lies in [[-1, n - 1]]. *)
Theorem char_to_word_index_prefix (s : span) (ci : Z) :
  char_offsets (context s) ≠ [] →
  ∃ i, char_to_word_index s ci = Some i
       ∧ -1 <= i < Z.of_nat (length (char_offsets (context s)))
       ∧ i = (if decide (char_offsets (context s)
                           !! prefix_below ci (char_offsets (context s)) = Some ci)
              then Z.of_nat (prefix_below ci (char_offsets (context s)))
              else Z.of_nat (prefix_below ci (char_offsets (context s))) - 1).
Proof.
  intros Hne. unfold char_to_word_index.
  rewrite (loop_prefix_below _ ci 0 None Hne).
  pose proof (prefix_below_le_length ci (char_offsets (context s))) as Hle.
  eexists. split; [reflexivity|].
  destruct (decide (char_offsets (context s)
                      !! prefix_below ci (char_offsets (context s)) = Some ci))
    as [E|_].
  - apply lookup_lt_Some in E. split; lia.
  - destruct (char_offsets (context s)) as [|c l]; [congruence|].
    simpl in *. split; lia.
Qed.

Lemma char_to_word_index_prefix_witness :
  ∃ i, char_to_word_index cat_sat 9 = Some i ∧ -1 <= i < 4 ∧ i = 2.
Proof.
  apply (char_to_word_index_prefix cat_sat 9). discriminate.
Defined.

(** ** Order properties of the offset mapping *)

Lemma char_to_word_index_before (s : span) (ci c0 : Z) :
  char_offsets (context s) !! 0%nat = Some c0 → ci < c0 →
  char_to_word_index s ci = Some (-1).
Proof.
  intros H0 Hlt. unfold char_to_word_index.
  destruct (char_offsets (context s)) as [|c rest]; [discriminate|].
  simpl in H0. injection H0 as ->.
  rewrite loop_before_first by exact Hlt. reflexivity.
Qed.

Lemma char_to_word_index_mono_aux (s : span) (ci ci' c0 : Z) :
  strictly_increasing (char_offsets (context s)) = true →
  char_offsets (context s) !! 0%nat = Some c0 →
  ci <= ci' →
  ∃ i i', char_to_word_index s ci = Some i
          ∧ char_to_word_index s ci' = Some i'
          ∧ -1 <= i ∧ i <= i'
          ∧ i' < Z.of_nat (length (char_offsets (context s))).
Proof.
  intros Hs H0 Hle.
  destruct (Z.lt_ge_cases ci' c0) as [Hlt'|Hge'].
  - exists (-1), (-1).
    rewrite (char_to_word_index_before s ci c0 H0) by lia.
    rewrite (char_to_word_index_before s ci' c0 H0) by lia.
    apply lookup_lt_Some in H0. repeat split; lia.
  - destruct (char_to_word_index_floor_index s ci' c0 Hs H0 ltac:(lia))
      as (j & Hj & [(cj & Hcj & _) Hmax]).
    apply lookup_lt_Some in Hcj.
    destruct (Z.lt_ge_cases ci c0) as [Hlt|Hge].
    + exists (-1), (Z.of_nat j).
      rewrite (char_to_word_index_before s ci c0 H0) by lia.
      repeat split; [assumption|lia..].
    + destruct (char_to_word_index_floor_index s ci c0 Hs H0 ltac:(lia))
        as (i & Hi & [(c & Hc & Hcle) _]).
      exists (Z.of_nat i), (Z.of_nat j).
      pose proof (Hmax i c Hc ltac:(lia)).
      repeat split; [assumption|assumption|lia..].
Qed.

(** X2. Over strictly increasing offsets of a unit with at least one
    token, [char_to_word_index] is monotone: a character index further to
    the right never maps to an earlier token. *)
Theorem char_to_word_index_mono (s : span) (ci ci' c0 : Z) :
  strictly_increasing (char_offsets (context s)) = true →
  char_offsets (context s) !! 0%nat = Some c0 →
  ci <= ci' →
  ∃ i i', char_to_word_index s ci = Some i
          ∧ char_to_word_index s ci' = Some i'
          ∧ i <= i'.
Proof.
  intros Hs H0 Hle.
  destruct (char_to_word_index_mono_aux s ci ci' c0 Hs H0 Hle)
    as (i & i' & Hi & Hi' & _ & Hii & _).
  exists i, i'. repeat split; assumption.
Qed.

Lemma char_to_word_index_mono_witness :
  ∃ i i', char_to_word_index cat_sat 3 = Some i
          ∧ char_to_word_index cat_sat 9 = Some i'
          ∧ i <= i'.
Proof.
  apply (char_to_word_index_mono cat_sat 3 9 0); [reflexivity|reflexivity|lia].
Defined.

(** X3. Over strictly increasing offsets, for a character index [ci] at
    or after the first offset, the start of the token that
    [char_to_word_index] returns is at or before [ci], it is [ci] exactly
    when [ci] is one of the offsets, and it maps back to the same token. *)
Theorem word_to_char_index_floor (s : span) (ci c0 : Z) :
  strictly_increasing (char_offsets (context s)) = true →
  char_offsets (context s) !! 0%nat = Some c0 →
  c0 <= ci →
  ∃ i c, char_to_word_index s ci = Some i
         ∧ word_to_char_index s i = Ok c
         ∧ c <= ci
         ∧ (c = ci ↔ ∃ j : nat, char_offsets (context s) !! j = Some ci)
         ∧ char_to_word_index s c = Some i.
Proof.
  intros Hs H0 Hle.
  destruct (char_to_word_index_floor_index s ci c0 Hs H0 Hle)
    as (i & Hi & Hfl).
  pose proof Hfl as [(c & Hc & Hcle) Hmax].
  exists (Z.of_nat i), c. split; [exact Hi|].
  assert (Hlt : (i < length (char_offsets (context s)))%nat)
    by (eapply lookup_lt_Some; exact Hc).
  split.
  { unfold word_to_char_index.
    destruct (py_getitem_in_range (char_offsets (context s)) (Z.of_nat i)
                ltac:(lia)) as (x & Hx & ->).
    rewrite Nat2Z.id, Hc in Hx. congruence. }
  split; [exact Hcle|]. split.
  - split; [intros ->; exists i; exact Hc|].
    intros (j & Hj). pose proof (Hmax j ci Hj ltac:(lia)) as Hji.
    destruct (decide (j = i)) as [->|Hne]; [congruence|].
    pose proof (strictly_increasing_lookup_lt _ j i ci c Hs ltac:(lia) Hj Hc). lia.
  - assert (Hc0 : c0 <= c).
    { destruct (decide (i = 0%nat)) as [->|E]; [rewrite H0 in Hc; injection Hc; lia|].
      pose proof (strictly_increasing_lookup_lt _ 0 i c0 c Hs ltac:(lia) H0 Hc). lia. }
    destruct (char_to_word_index_floor_index s c c0 Hs H0 Hc0)
      as (i' & Hi' & Hfl').
    assert (Hin : in_token (char_offsets (context s)) c i).
    { split; [exists c; split; [exact Hc|lia]|].
      intros c' Hc'.
      exact (strictly_increasing_lookup_lt _ _ _ c c' Hs (Nat.lt_succ_diag_r _) Hc Hc'). }
    pose proof (in_token_unique _ _ _ _ Hs Hfl' Hin) as <-. exact Hi'.
Qed.

Lemma word_to_char_index_floor_witness :
  ∃ i c, char_to_word_index cat_sat 6 = Some i
         ∧ word_to_char_index cat_sat i = Ok c
         ∧ c <= 6
         ∧ (c = 6 ↔ ∃ j : nat, char_offsets (context cat_sat) !! j = Some 6)
         ∧ char_to_word_index cat_sat c = Some i.
Proof.
  apply (word_to_char_index_floor cat_sat 6 0); [reflexivity|reflexivity|lia].
Defined.

(** X4. For two spans over the same unit with strictly increasing
    offsets and at least one token, when [other in self] holds the word
    range of [other] lies inside the word range of [self]. *)
Theorem contains_word_range (s t : span) (c0 : Z) :
  context t = context s →
  strictly_increasing (char_offsets (context s)) = true →
  char_offsets (context s) !! 0%nat = Some c0 →
  __contains__ s t = true →
  ∃ ws we ws' we',
    get_word_start s = Some ws ∧ get_word_end s = Some we
    ∧ get_word_start t = Some ws' ∧ get_word_end t = Some we'
    ∧ ws <= ws' ∧ we' <= we.
Proof.
  intros Hctx Hs H0 Hin. unfold __contains__ in Hin.
  apply andb_true_iff in Hin as [Hlo Hhi]. apply Z.leb_le in Hlo, Hhi.
  destruct (char_to_word_index_mono_aux s (char_start s) (char_start t) c0 Hs H0 Hlo)
    as (ws & ws' & Hws & Hws' & _ & Hle & _).
  destruct (char_to_word_index_mono_aux s (char_end t) (char_end s) c0 Hs H0 Hhi)
    as (we' & we & Hwe' & Hwe & _ & Hle' & _).
  exists ws, we, ws', we'.
  unfold get_word_start, get_word_end, char_to_word_index in *.
  rewrite Hctx. repeat split; assumption.
Qed.

Lemma contains_word_range_witness :
  ∃ ws we ws' we',
    get_word_start cat_sat = Some ws ∧ get_word_end cat_sat = Some we
    ∧ get_word_start (TemporarySpan the_cat 8 10 (Atom ANone)) = Some ws'
    ∧ get_word_end (TemporarySpan the_cat 8 10 (Atom ANone)) = Some we'
    ∧ ws <= ws' ∧ we' <= we.
Proof.
  apply (contains_word_range cat_sat (TemporarySpan the_cat 8 10 (Atom ANone)) 0);
    reflexivity.
Defined.

(** X5. On a unit with strictly increasing offsets, for a span that
    starts at or after the first offset and does not end before it
    starts, [get_n] returns a count between 1 and the number of tokens,
    and [get_attrib_tokens] returns exactly that many items of any list
    attribute aligned with the tokens. *)
Theorem get_n_counts_tokens (s : span) (c0 : Z) :
  strictly_increasing (char_offsets (context s)) = true →
  char_offsets (context s) !! 0%nat = Some c0 →
  c0 <= char_start s → char_start s <= char_end s →
  ∃ n, get_n s = Ok n
       ∧ 1 <= n <= Z.of_nat (length (char_offsets (context s)))
       ∧ ∀ a l, __getattribute__ (context s) a = Ok (PList l) →
                length l = length (char_offsets (context s)) →
                ∃ toks, get_attrib_tokens s a = Ok (PList toks)
                        ∧ Z.of_nat (length toks) = n.
Proof.
  intros Hs H0 Hc0 Hse.
  destruct (char_to_word_index_floor_index s (char_start s) c0 Hs H0 Hc0)
    as (ws & Hws & [(c & Hc & Hcle) _]).
  destruct (char_to_word_index_floor_index s (char_end s) c0 Hs H0 ltac:(lia))
    as (we & Hwe & [(c' & Hc' & _) Hmax]).
  pose proof (Hmax ws c Hc ltac:(lia)) as Hord.
  apply lookup_lt_Some in Hc'.
  exists (Z.of_nat we - Z.of_nat ws + 1).
  unfold get_n, get_attrib_tokens, get_word_end, get_word_start.
  rewrite Hwe, Hws. split; [reflexivity|]. split; [lia|].
  intros a l Hattr Hlen. rewrite Hattr. simpl.
  eexists. split; [reflexivity|].
  rewrite py_list_slice_within by lia.
  unfold slice_incl. rewrite length_take, length_drop. lia.
Qed.

Lemma get_n_counts_tokens_witness :
  ∃ n, get_n cat_sat = Ok n
       ∧ 1 <= n <= 4
       ∧ ∀ a l, __getattribute__ the_cat a = Ok (PList l) →
                length l = 4%nat →
                ∃ toks, get_attrib_tokens cat_sat a = Ok (PList toks)
                        ∧ Z.of_nat (length toks) = n.
Proof.
  apply (get_n_counts_tokens cat_sat 0); [reflexivity|reflexivity|simpl; lia..].
Defined.

(** ** Containment *)

(** X6. [__contains__] is reflexive and transitive, two spans that contain
    each other have the same endpoints, and two spans that [__eq__] makes
    equal contain each other. The units are never compared: containment
    holds between spans of different units. *)
Theorem contains_preorder (s t u : span) :
  __contains__ s s = true
  ∧ (__contains__ s t = true → __contains__ t u = true →
     __contains__ s u = true)
  ∧ (__contains__ s t = true → __contains__ t s = true →
     char_start s = char_start t ∧ char_end s = char_end t)
  ∧ (__eq__ s (span_obj t) = Ok true →
     __contains__ s t = true ∧ __contains__ t s = true)
  ∧ (char_start s = char_start t → char_end s = char_end t →
     __contains__ s t = true).
Proof.
  unfold __contains__. rewrite !andb_true_iff, !Z.leb_le.
  split; [lia|]. split; [lia|]. split; [lia|]. split; [|lia].
  intros Heq. apply eq_span_obj in Heq. lia.
Qed.

Lemma contains_preorder_witness :
  __contains__ cat_sat (TemporarySpan wide_gap 5 7 (Atom ANone)) = true
  ∧ __contains__ cat_sat (TemporarySpan wide_gap 6 6 (Atom ANone)) = true.
Proof.
  destruct (contains_preorder cat_sat (TemporarySpan wide_gap 5 7 (Atom ANone))
              (TemporarySpan wide_gap 6 6 (Atom ANone))) as (_ & Htrans & _).
  split; [reflexivity|]. apply Htrans; reflexivity.
Defined.

(** X7. Slicing does not clip to the span: the slice [self[start:stop]] is
    contained in [self] exactly when [start] is absent or non-negative and
    [stop] is absent, negative, or at most [len(self)]. A negative [start]
    moves the start to the left of the span and a [stop] beyond the length
    moves the end to its right. *)
Theorem getitem_slice_contained (s : span) (start stop step : option Z) :
  ∃ s', __getitem__ s (KSlice start stop step) = Ok s'
        ∧ (__contains__ s s' = true ↔
           (∀ a, start = Some a → 0 <= a)
           ∧ (∀ b, stop = Some b → b < 0 ∨ b <= __len__ s)).
Proof.
  destruct (getitem_slice_fields s start stop step)
    as (s' & Hget & _ & _ & Hcs & Hce & _).
  exists s'. split; [exact Hget|].
  unfold __contains__, __len__. rewrite andb_true_iff, !Z.leb_le, Hcs, Hce.
  destruct start as [a|], stop as [b|]; simpl;
    try destruct (Z.leb_spec 0 b); split.
  all: try (intros [H1 H2]; split; [intros ? [= <-]|intros ? [= <-]]; lia).
  all: try (intros [H1 H2]; try specialize (H1 _ eq_refl);
            try specialize (H2 _ eq_refl); lia).
Qed.

(** X8. Slices compose by adding offsets: when [d] and [a + d] are
    non-negative, [self[a:b][c:d]] is [self[a+c:a+d]], whatever [b] is
    (the inner stop does not limit the outer one), and [self[a:b][c:]] is
    [self[a+c:b]]. *)
Theorem getitem_slice_compose (s : span) (a c d : Z) (b st1 st2 st3 : option Z) :
  (0 <= d → 0 <= a + d →
   __getitem__ s (KSlice (Some a) b st1)
     ≫= (λ s1, __getitem__ s1 (KSlice (Some c) (Some d) st2))
   = __getitem__ s (KSlice (Some (a + c)) (Some (a + d)) st3))
  ∧ __getitem__ s (KSlice (Some a) b st1)
      ≫= (λ s1, __getitem__ s1 (KSlice (Some c) None st2))
    = __getitem__ s (KSlice (Some (a + c)) b st3).
Proof.
  unfold __getitem__, _get_instance. simpl. split.
  - intros Hd Had.
    destruct (Z.leb_spec 0 d); [|lia].
    destruct (Z.leb_spec 0 (a + d)); [|lia].
    destruct s as [ctx cs ce m]; simpl; f_equal;
      unfold TemporarySpan_get_instance, TemporarySpan; f_equal; lia.
  - destruct s as [ctx cs ce m]; simpl; f_equal;
      unfold TemporarySpan_get_instance, TemporarySpan; f_equal; lia.
Qed.

Lemma getitem_slice_compose_witness :
  __getitem__ cat_sat (KSlice (Some 1) (Some 2) None)
    ≫= (λ s1, __getitem__ s1 (KSlice (Some 1) (Some 5) None))
  = __getitem__ cat_sat (KSlice (Some 2) (Some 6) None).
Proof.
  destruct (getitem_slice_compose cat_sat 1 1 5 (Some 2) None None None) as [H _].
  apply H; lia.
Defined.

(** ** Equality and hashing *)

(** X10. On spans [__eq__] is an equivalence relation that reads only the
    unit reference and the two endpoints: a span is equal to any span
    with the same unit, [char_start] and [char_end], whatever the [meta]
    of either. *)
Theorem eq_equivalence (s t u : span) :
  __eq__ s (span_obj s) = Ok true
  ∧ (__eq__ s (span_obj t) = Ok true → __eq__ t (span_obj s) = Ok true)
  ∧ (__eq__ s (span_obj t) = Ok true → __eq__ t (span_obj u) = Ok true →
     __eq__ s (span_obj u) = Ok true)
  ∧ (context t = context s → char_start t = char_start s →
     char_end t = char_end s → __eq__ s (span_obj t) = Ok true).
Proof.
  rewrite !eq_span_obj.
  split; [done|]. split; [intros (-> & -> & ->); done|].
  split; [intros (-> & -> & ->); done|].
  intros -> -> ->. done.
Qed.

Lemma eq_equivalence_witness :
  __eq__ cat_sat (span_obj cat_sat_tagged) = Ok true.
Proof.
  destruct (eq_equivalence cat_sat cat_sat_tagged cat_sat) as (_ & _ & _ & H).
  apply H; reflexivity.
Defined.

(** X11. [__hash__] agrees with [__eq__]: spans that are equal have the
    same hash, whatever the builtin [id] and [hash] are. The hash is a
    plain sum, so exchanging the two endpoints of a span does not change
    it. *)
Theorem hash_eq (py_id : addr → Z) (py_hash : Z → Z) (s t : span) :
  (__eq__ s (span_obj t) = Ok true →
   __hash__ py_id py_hash s = __hash__ py_id py_hash t)
  ∧ __hash__ py_id py_hash (TemporarySpan (context s) (char_end s) (char_start s) (meta s))
    = __hash__ py_id py_hash s.
Proof.
  unfold __hash__. split.
  - intros Heq. apply eq_span_obj in Heq as (-> & -> & ->). reflexivity.
  - simpl. lia.
Qed.

Lemma hash_eq_witness :
  __hash__ Z.pos Z.succ cat_sat = __hash__ Z.pos Z.succ cat_sat_tagged.
Proof.
  destruct (hash_eq Z.pos Z.succ cat_sat cat_sat_tagged) as [H _].
  apply H. reflexivity.
Defined.

(** ** The raw text of a span *)

Lemma substring_none (s : string) : ∀ n, substring n 0 s = EmptyString.
Proof. induction s as [|c s IH]; intros [|n]; simpl; auto. Qed.

Lemma substring_of_empty (n m : nat) : substring n m EmptyString = EmptyString.
Proof. destruct n, m; reflexivity. Qed.

Lemma substring_same (s : string) (n n' k k' : nat) :
  k = k' → (k ≠ 0%nat → n = n') → substring n k s = substring n' k' s.
Proof.
  intros <- Hn. destruct k as [|k]; [by rewrite !substring_none|].
  rewrite Hn by discriminate. reflexivity.
Qed.

Lemma substring_substring (s : string) :
  ∀ n m a k, (a + k <= m)%nat →
             substring a k (substring n m s) = substring (n + a) k s.
Proof.
  induction s as [|c s IH]; intros n m a k Hak.
  - by rewrite !substring_of_empty.
  - destruct n as [|n].
    + destruct m as [|m].
      * assert (a = 0%nat) as -> by lia. assert (k = 0%nat) as -> by lia.
        reflexivity.
      * change (substring 0 (S m) (String c s))
          with (String c (substring 0 m s)).
        destruct a as [|a].
        -- destruct k as [|k]; [reflexivity|]. simpl.
           rewrite (IH 0%nat m 0%nat k) by lia. reflexivity.
        -- change (substring (S a) k (String c (substring 0 m s)))
             with (substring a k (substring 0 m s)).
           rewrite (IH 0%nat m a k) by lia. reflexivity.
    + change (substring (S n) m (String c s)) with (substring n m s).
      rewrite (IH n m a k Hak). reflexivity.
Qed.

(** X12. [get_span] never raises. Its result is never longer than the
    text; when [char_start] and [char_end + 1] are non-negative it has
    [min(char_end + 1, len(text)) - char_start] characters, or none when
    that is negative: a range that reaches beyond the text is cut at the
    end of the text, and an empty or inverted range gives the empty
    string. On a span within its text the length is [len(self)]. *)
Theorem get_span_total (s : span) (sep : string) :
  ∃ r, get_span s sep = Ok r
       ∧ (String.length r <= String.length (text (context s)))%nat
       ∧ (0 <= char_start s → 0 <= char_end s + 1 →
          Z.of_nat (String.length r)
          = Z.max 0 (Z.min (char_end s + 1)
                       (Z.of_nat (String.length (text (context s))))
                     - char_start s))
       ∧ (valid_range s → Z.of_nat (String.length r) = __len__ s).
Proof.
  unfold get_span, get_attrib_span. simpl. eexists. split; [reflexivity|].
  unfold py_str_slice, py_slice_range, py_slice_bound, valid_range, __len__.
  simpl. rewrite length_substring.
  split; [lia|]. split.
  - intros H0 H1.
    destruct (Z.ltb_spec (char_start s) 0); [lia|].
    destruct (Z.ltb_spec (char_end s + 1) 0); lia.
  - intros (H0 & H1 & H2).
    destruct (Z.ltb_spec (char_start s) 0); [lia|].
    destruct (Z.ltb_spec (char_end s + 1) 0); lia.
Qed.

Lemma get_span_total_witness :
  ∃ r, get_span (TemporarySpan the_cat 8 40 (Atom ANone)) " " = Ok r
       ∧ Z.of_nat (String.length r) = 4.
Proof.
  destruct (get_span_total (TemporarySpan the_cat 8 40 (Atom ANone)) " ")
    as (r & Hr & _ & Hlen & _).
  exists r. split; [exact Hr|]. rewrite Hlen; simpl; lia.
Defined.

(** X13. The text of a slice is the Python slice of the text of the span:
    on a span within its text, for a [start] that is absent or
    non-negative and a [stop] that is absent or between [-len(self)] and
    [len(self)], [self[start:stop].get_span()] is
    [self.get_span()[start:stop]]. *)
Theorem get_span_getitem (s : span) (start stop step : option Z) (sep : string) :
  valid_range s →
  (∀ a, start = Some a → 0 <= a) →
  (∀ b, stop = Some b → - __len__ s <= b <= __len__ s) →
  ∃ s' r, __getitem__ s (KSlice start stop step) = Ok s'
          ∧ get_span s sep = Ok r
          ∧ get_span s' sep = Ok (py_str_slice r start stop).
Proof.
  intros Hv Hstart Hstop.
  destruct (getitem_slice_fields s start stop step)
    as (s' & Hget & _ & Hctx & Hcs & Hce & _).
  exists s', (substring_incl (text (context s)) (char_start s) (char_end s)).
  split; [exact Hget|]. split; [apply get_span_within; exact Hv|].
  destruct Hv as (H0 & Hse & Hn). unfold __len__ in Hstop.
  unfold get_span, get_attrib_span. simpl. f_equal.
  rewrite Hctx, Hcs, Hce.
  unfold py_str_slice, py_slice_range, substring_incl. simpl.
  rewrite length_substring.
  rewrite substring_substring.
  - apply substring_same.
    + destruct start as [a|], stop as [b|]; simpl; unfold py_slice_bound;
        try specialize (Hstart _ eq_refl); try specialize (Hstop _ eq_refl);
        repeat match goal with
               | |- context [?x <? ?y] => destruct (Z.ltb_spec x y)
               | |- context [?x <=? ?y] => destruct (Z.leb_spec x y)
               end; lia.
    + destruct start as [a|], stop as [b|]; simpl; unfold py_slice_bound;
        try specialize (Hstart _ eq_refl); try specialize (Hstop _ eq_refl);
        repeat match goal with
               | |- context [?x <? ?y] => destruct (Z.ltb_spec x y)
               | |- context [?x <=? ?y] => destruct (Z.leb_spec x y)
               end; lia.
  - destruct start as [a|], stop as [b|]; simpl; unfold py_slice_bound;
      try specialize (Hstart _ eq_refl); try specialize (Hstop _ eq_refl);
      repeat match goal with
             | |- context [?x <? ?y] => destruct (Z.ltb_spec x y)
             | |- context [?x <=? ?y] => destruct (Z.leb_spec x y)
             end; lia.
Qed.

Lemma get_span_getitem_witness :
  ∃ s' r, __getitem__ cat_sat (KSlice (Some 1) (Some (-4)) None) = Ok s'
          ∧ get_span cat_sat " " = Ok r
          ∧ get_span s' " " = Ok (py_str_slice r (Some 1) (Some (-4))).
Proof.
  apply (get_span_getitem cat_sat (Some 1) (Some (-4)) None " ").
  - unfold valid_range. simpl. lia.
  - intros a [= <-]. lia.
  - intros b [= <-]. unfold __len__. simpl. lia.
Defined.

(** ** Failures of attribute projection *)

Lemma getattribute_raises (c : Sentence) (a : string) (e : exn) :
  __getattribute__ c a = Raise e → e = AttributeError.
Proof.
  unfold __getattribute__.
  destruct (columns c !! a); [discriminate|].
  destruct (other_attributes c !! a); [discriminate|].
  intros [= <-]. reflexivity.
Qed.

(** X14. For an attribute name other than ['words'], [get_attrib_span]
    raises [AttributeError] exactly when the lookup of the name on the
    unit does, that is when the unit has no column, method or other
    attribute of that name. The only other exception it raises is
    [TypeError]: it raises [TypeError] on every unit without tokens for
    every name the unit has, and it never raises [IndexError], whatever
    the range of the span. *)
Theorem get_attrib_span_errors (s : span) (a sep : string) :
  a ≠ "words"%string →
  (get_attrib_span s a sep = Raise AttributeError ↔
   __getattribute__ (context s) a = Raise AttributeError)
  ∧ (∀ e, get_attrib_span s a sep = Raise e →
          e = AttributeError ∨ e = TypeError)
  ∧ (char_offsets (context s) = [] →
     (∃ v, __getattribute__ (context s) a = Ok v) →
     get_attrib_span s a sep = Raise TypeError).
Proof.
  intros Ha. unfold get_attrib_span.
  destruct (String.eqb_spec a "words") as [|_]; [contradiction|].
  unfold get_attrib_tokens, get_word_end, get_word_start.
  destruct (__getattribute__ (context s) a) as [v|e] eqn:Hv; simpl.
  - destruct (char_to_word_index s (char_end s)) as [we|] eqn:Hwe; simpl.
    + assert (Hne : char_offsets (context s) ≠ []).
      { intros E. unfold char_to_word_index in Hwe. rewrite E in Hwe.
        discriminate. }
      destruct v as [[| |str|]|l]; simpl;
        try destruct (strs_of _); simpl;
        (split; [split; intros; discriminate|]);
        (split; [intros e [= <-]; auto|]); try (intros; contradiction);
        try (intros e; discriminate).
    + split; [split; intros; discriminate|].
      split; [intros e [= <-]; auto|]. reflexivity.
  - apply getattribute_raises in Hv as ->.
    split; [split; reflexivity|].
    split; [intros e [= <-]; auto|]. intros _ [v Hv]. discriminate.
Qed.

Lemma get_attrib_span_errors_witness :
  get_attrib_span blank_span "lemmas" " " = Raise TypeError
  ∧ get_attrib_span cat_sat "tokens" " " = Raise AttributeError.
Proof.
  destruct (get_attrib_span_errors blank_span "lemmas" " ") as (_ & _ & H);
    [discriminate|].
  destruct (get_attrib_span_errors cat_sat "tokens" " ") as (H' & _);
    [discriminate|].
  split; [apply H; [reflexivity|eexists; reflexivity]|apply H'; reflexivity].
Defined.

(** The columns that [_asdict] leaves out and the names of the class are
    found like any other attribute: [type] is the string ['sentence'],
    whose slice by the word range of the span is joined character by
    character, and a method cannot be sliced. *)
Example get_attrib_span_other_names :
  get_attrib_span cat_sat "type" " " = Ok "e n"%string
  ∧ get_attrib_span cat_sat "_asdict" " " = Raise TypeError.
Proof. split; reflexivity. Qed.

(** ** Length of a slice *)

(** X15. The length of a slice follows from the offsets alone, without
    clipping to the span: with [a] the start (0 when absent),
    [len(self[a:b])] is [b - a] for [b >= 0], even when [b] exceeds
    [len(self)]; it is [len(self) + b - a] for [b < 0] and
    [len(self) - a] without a stop. *)
Theorem len_getitem (s : span) (start stop step : option Z) :
  ∃ s', __getitem__ s (KSlice start stop step) = Ok s'
        ∧ (stop = None → __len__ s' = __len__ s - default 0 start)
        ∧ (∀ b, stop = Some b → 0 <= b → __len__ s' = b - default 0 start)
        ∧ (∀ b, stop = Some b → b < 0 →
                __len__ s' = __len__ s + b - default 0 start).
Proof.
  destruct (getitem_slice_fields s start stop step)
    as (s' & Hget & _ & _ & Hcs & Hce & _).
  exists s'. split; [exact Hget|]. unfold __len__. rewrite Hcs, Hce.
  destruct start as [a|]; simpl.
  all: split; [intros ->; simpl; lia|].
  all: split; intros b -> Hb; simpl.
  all: destruct (Z.leb_spec 0 b); lia.
Qed.

Lemma len_getitem_witness :
  ∃ s', __getitem__ cat_sat (KSlice (Some 2) (Some 30) None) = Ok s'
        ∧ __len__ s' = 28.
Proof.
  destruct (len_getitem cat_sat (Some 2) (Some 30) None) as (s' & Hget & _ & H & _).
  exists s'. split; [exact Hget|]. rewrite (H 30 eq_refl); simpl; lia.
Defined.

(** ** A span that starts before the first token *)

(** X16. On a unit with strictly increasing offsets, a span whose
    [char_start] precedes the first offset has word start [-1];
    [get_n] still counts [get_word_end() + 2] tokens, while
    [get_attrib_tokens] slices the attribute from its last item: it
    returns at most one item, and none unless the span ends in the last
    token. *)
Theorem get_attrib_tokens_before_first (s : span) (c0 : Z) (a : string)
    (l : list atom) :
  strictly_increasing (char_offsets (context s)) = true →
  char_offsets (context s) !! 0%nat = Some c0 →
  char_start s < c0 →
  __getattribute__ (context s) a = Ok (PList l) →
  length l = length (char_offsets (context s)) →
  ∃ we toks,
    get_word_start s = Some (-1)
    ∧ get_word_end s = Some we
    ∧ get_n s = Ok (we + 2)
    ∧ get_attrib_tokens s a = Ok (PList toks)
    ∧ (length toks <= 1)%nat
    ∧ (we + 1 < Z.of_nat (length l) → toks = []).
Proof.
  intros Hs H0 Hlt Hattr Hlen.
  destruct (char_to_word_index_mono_aux s (char_end s) (char_end s) c0 Hs H0
              ltac:(lia)) as (we & we' & Hwe & Hwe' & Hlo & _ & Hhi).
  rewrite Hwe in Hwe'. injection Hwe' as <-.
  pose proof (char_to_word_index_before s (char_start s) c0 H0 Hlt) as Hws.
  exists we. eexists.
  unfold get_n, get_attrib_tokens, get_word_start, get_word_end.
  rewrite Hws, Hwe, Hattr. simpl.
  split; [reflexivity|]. split; [reflexivity|].
  split; [f_equal; lia|]. split; [reflexivity|].
  unfold py_list_slice, py_slice_range, py_slice_bound. simpl.
  destruct (Z.ltb_spec (we + 1) 0); [lia|].
  split.
  - rewrite length_take, length_drop. lia.
  - intros Hnot. replace (Z.to_nat _) with 0%nat by lia. reflexivity.
Qed.

Lemma get_attrib_tokens_before_first_witness :
  ∃ we toks,
    get_word_start (TemporarySpan wide_gap (-2) 3 (Atom ANone)) = Some (-1)
    ∧ get_word_end (TemporarySpan wide_gap (-2) 3 (Atom ANone)) = Some we
    ∧ get_n (TemporarySpan wide_gap (-2) 3 (Atom ANone)) = Ok (we + 2)
    ∧ get_attrib_tokens (TemporarySpan wide_gap (-2) 3 (Atom ANone)) "words"
      = Ok (PList toks)
    ∧ (length toks <= 1)%nat
    ∧ (we + 1 < 2 → toks = []).
Proof.
  apply (get_attrib_tokens_before_first
           (TemporarySpan wide_gap (-2) 3 (Atom ANone)) 0 "words"
           [AStr "The"; AStr "cat"]);
    reflexivity.
Defined.
